(** * DART benchmark proxy: a shallow embedding of [app.py]

    The service takes a list of peer companies, asks the disclosure API for
    each peer's financial statements, derives nine ratios per peer and
    returns their column-wise mean.

    Conventions of the embedding:
    - a Python [float] is an IEEE binary64 number: Rocq's primitive [float];
    - [Optional[float]] is [option float]; a [dict] with string keys is a
      [gmap string _], so that a missing key ([d !! k = None]) and a key
      bound to [None] ([d !! k = Some None]) stay apart;
    - a Python function that may raise returns a [res];
    - the handler runs in a state-and-error monad whose state is the list
      of outbound lookups made so far;
    - a decoded response is a status and an optional list of line items; a
      line item is a JSON object whose fields are strings or null, as the
      upstream schema has them;
    - a request is one that passed the schema validation of the web
      framework: [year] and [report_code] are strings, the three other
      fields are optional. *)

From Stdlib Require Import ZArith Floats Uint63 Ascii String.
From stdpp Require Import gmap strings list fin_maps.

Local Open Scope Z_scope.

(** ** Exceptions and results *)

Inductive exn :=
| ValueError
| ZeroDivisionError
| HTTPException (status_code : Z) (detail : string)
| RequestError (msg : string).

Inductive res (A : Type) :=
| Ok (a : A)
| Raise (e : exn).
Arguments Ok {A} a.
Arguments Raise {A} e.

#[export] Instance res_ret : MRet res := @Ok.
#[export] Instance res_bind : MBind res := λ A B f x,
  match x with
  | Ok a => f a
  | Raise e => Raise e
  end.

(** ** Python values found in a line item: [None] or a [str] *)

Inductive pyval :=
| PNone
| PStr (s : string).

(** [not v] is [negb (truthy v)]. *)
Definition truthy (v : pyval) : bool :=
  match v with
  | PNone => false
  | PStr s => negb (String.eqb s "")
  end.

(** [v == s] for a [str] s. *)
Definition py_eq (v : pyval) (s : string) : bool :=
  match v with
  | PNone => false
  | PStr t => String.eqb t s
  end.

(** [str(v)]. *)
Definition py_str (v : pyval) : string :=
  match v with
  | PNone => "None"
  | PStr s => s
  end.

(** [s.replace(c, "")] for a one-character [c]. *)
Fixpoint str_remove (c : ascii) (s : string) : string :=
  match s with
  | EmptyString => EmptyString
  | String a r =>
      if Ascii.eqb a c then str_remove c r else String a (str_remove c r)
  end.

(** [d.get(k)] on a JSON object. *)
Definition dict_get (d : gmap string pyval) (k : string) : pyval :=
  default PNone (d !! k).

(** Truth value of an [Optional[float]]: [None] and both zeros are false,
    every other number, not-a-number included, is true. *)
Definition truthy_float (v : option float) : bool :=
  match v with
  | None => false
  | Some x => negb (PrimFloat.eqb x 0)
  end.

(** ** The upstream service *)

(** The query of one lookup, as [get_single_financials] builds it. *)
Record call := {
  url : string;
  crtfc_key : string;
  corp_code : string;
  bsns_year : string;
  reprt_code : string;
  fs_div : string
}.

(** The decoded response: [data.get("status")] and the value under
    ["list"], [None] when the key is missing. *)
Record response := {
  resp_status : pyval;
  resp_list : option (list (gmap string pyval))
}.

(** The outcome of [requests.get(...)] followed by [r.json()]: the decoded
    response, or a fault (time-out, connection error, text that is not
    JSON), which both calls signal by raising. *)
Inductive reply :=
| Reply (data : response)
| Fault (msg : string).

(** What the program takes from its surroundings: the interpreter's
    [float()] on a [str] ([Raise] when it refuses the text), the API key
    of the process environment, and the upstream service, whose reply to
    a lookup may depend on the lookups made before it. *)
Class Env := {
  py_float : string → res float;
  DART_API_KEY : string;
  upstream : list call → call → reply
}.

Definition DART_BASE : string := "https://opendart.fss.or.kr/api".

(** ** State-and-error monad of the handler *)

Definition M (A : Type) : Type := list call → list call * res A.

#[export] Instance M_ret : MRet M := λ A a tr, (tr, Ok a).
#[export] Instance M_bind : MBind M := λ A B f m tr,
  match m tr with
  | (tr', Ok a) => f a tr'
  | (tr', Raise e) => (tr', Raise e)
  end.

Definition raise {A} (e : exn) : M A := λ tr, (tr, Raise e).
Definition lift {A} (r : res A) : M A := λ tr, (tr, r).

Section Model.
Context `{Env}.

Definition mk_call (corp_code year report_code : string) : call :=
  {| url := DART_BASE +:+ "/fnlttSinglAcntAll.json";
     crtfc_key := DART_API_KEY;
     corp_code := corp_code;
     bsns_year := year;
     reprt_code := report_code;
     fs_div := "CFS" |}.

Definition get_single_financials (corp_code year report_code : string)
  : M response :=
  λ tr, let c := mk_call corp_code year report_code in
        (tr ++ [c],
         match upstream tr c with
         | Reply data => Ok data
         | Fault msg => Raise (RequestError msg)
         end).

(** ** Extraction *)

Fixpoint extract_amount (items : list (gmap string pyval)) (name_kr : string)
  : res (option float) :=
  match items with
  | [] => Ok None
  | it :: rest =>
      if py_eq (dict_get it "account_nm") name_kr then
        let raw := dict_get it "thstrm_amount" in
        if negb (truthy raw) then Ok None
        else
          match py_float (str_remove "," (py_str raw)) with
          | Ok x => Ok (Some x)
          | Raise _ => Ok None
          end
      else extract_amount rest name_kr
  end.

(** ** Ratios *)

(** [float(a) / float(b)] on two floats. *)
Definition py_truediv (a b : float) : res float :=
  if PrimFloat.eqb b 0 then Raise ZeroDivisionError
  else Ok (PrimFloat.div a b).

(** The inner function [div] of [compute_ratios_from_items];
    [b in (None, 0)] holds for [None] and for both zeros. *)
Definition div (a b : option float) : res (option float) :=
  match a, b with
  | None, _ => Ok None
  | Some _, None => Ok None
  | Some x, Some y =>
      if PrimFloat.eqb y 0 then Ok None
      else
        match py_truediv x y with
        | Ok q => Ok (Some q)
        | Raise ZeroDivisionError => Ok None
        | Raise e => Raise e
        end
  end.

Definition compute_ratios_from_items (items : list (gmap string pyval))
  : res (gmap string (option float)) :=
  current_assets ← extract_amount items "유동자산";
  current_liab ← extract_amount items "유동부채";
  total_assets ← extract_amount items "자산총계";
  total_liab ← extract_amount items "부채총계";
  total_equity ← extract_amount items "자본총계";
  revenue ← extract_amount items "매출액";
  op_income ← extract_amount items "영업이익";
  net_income ← extract_amount items "당기순이익";
  interest_exp ← extract_amount items "이자비용";
  inventory ← extract_amount items "재고자산";
  current_ratio ← div current_assets current_liab;
  debt_ratio ← div total_liab total_equity;
  oper_margin ← div op_income revenue;
  net_margin ← div net_income revenue;
  roe ← div net_income total_equity;
  roa ← div net_income total_assets;
  asset_turnover ← div revenue total_assets;
  inventory_turnover ←
    (if truthy_float inventory then div revenue inventory else Ok None);
  interest_coverage ←
    (if truthy_float interest_exp then div op_income interest_exp
     else Ok None);
  Ok (<["current_ratio" := current_ratio]>
      (<["debt_ratio" := debt_ratio]>
      (<["oper_margin" := oper_margin]>
      (<["net_margin" := net_margin]>
      (<["roe" := roe]>
      (<["roa" := roa]>
      (<["asset_turnover" := asset_turnover]>
      (<["inventory_turnover" := inventory_turnover]>
      (<["interest_coverage" := interest_coverage]> ∅))))))))).

End Model.

(** ** pandas: [DataFrame(list of dicts)] and [mean(numeric_only=True)]

    The library is not part of the repository; the model follows its
    documented behaviour on the data the handler gives it, dicts from
    ratio name to [None] or a float:
    - the column labels are the keys of the rows; a row without the key
      contributes a not-a-number cell;
    - a column that holds at least one float becomes a [float64] column, its
      [None] cells becoming not-a-number; a column of [None] cells only
      keeps the [object] dtype;
    - [mean(numeric_only=True)] drops the [object] columns and, on each
      [float64] column, leaves the not-a-number cells out of both the sum
      and the count (skipna); with nothing left the mean is not-a-number.
    The library leaves the order of the additions to its numeric back end;
    the model adds from left to right, starting from zero. *)

Inductive column :=
| ObjectCol (cells : list (option float))
| Float64Col (cells : list float).

Record DataFrame := {
  df_len : nat;
  df_columns : gmap string column
}.

Definition is_None {A} (v : option A) : bool :=
  match v with
  | None => true
  | Some _ => false
  end.

Definition cell_of (k : string) (row : gmap string (option float))
  : option float :=
  match row !! k with
  | None => Some nan
  | Some v => v
  end.

Definition infer_column (cells : list (option float)) : column :=
  if forallb is_None cells then ObjectCol cells
  else Float64Col (map (default nan) cells).

Definition pd_DataFrame (rows : list (gmap string (option float)))
  : DataFrame :=
  {| df_len := length rows;
     df_columns :=
       map_imap (λ k _, Some (infer_column (map (cell_of k) rows)))
                (gset_to_gmap tt (⋃ (dom <$> rows))) |}.

Definition float_of_nat (n : nat) : float :=
  PrimFloat.of_uint63 (Uint63.of_Z (Z.of_nat n)).

Definition notnan (x : float) : bool := negb (PrimFloat.is_nan x).

(** Sum over count, left to right from zero. *)
Definition arith_mean (xs : list float) : float :=
  PrimFloat.div (fold_left PrimFloat.add xs 0%float)
                (float_of_nat (length xs)).

Definition nanmean (cells : list float) : float :=
  match List.filter notnan cells with
  | [] => nan
  | present => arith_mean present
  end.

Definition df_mean_numeric_only (df : DataFrame) : gmap string float :=
  omap (λ c, match c with
             | Float64Col cells => Some (nanmean cells)
             | ObjectCol _ => None
             end) (df_columns df).

(** [Series.to_dict()]; the values are floats, the handler then stores
    [None] over some of them. *)
Definition to_dict (s : gmap string float) : gmap string (option float) :=
  Some <$> s.

(** ** The handler *)

Record BenchmarkRequest := {
  year : string;
  report_code : string;
  peers : option (list string);
  industry_code : option string;
  metrics : option (list string)
}.

Record BenchmarkResponse := {
  source : string;
  year_echo : string;
  count_peers : nat;
  benchmarks : gmap string (option float);
  notes : option string
}.

Definition MissingPeers : exn :=
  HTTPException 400
    "현재 버전은 peers(동종사 corp_code 배열) 입력이 필요합니다. 추후 industry_code 매핑 추가 예정.".

Definition NoUsableData : exn :=
  HTTPException 404 "입력한 peers에서 유효한 자료를 찾지 못했습니다.".

(** [v is not None and (math.isnan(v) or math.isinf(v))]. *)
Definition non_finite (v : option float) : bool :=
  match v with
  | None => false
  | Some x => PrimFloat.is_nan x || PrimFloat.is_infinity x
  end.

(** The loop over [list(benchmarks.items())] that stores [None] over
    every non-finite mean. *)
Definition nan_to_none (benchmarks : gmap string (option float))
  : gmap string (option float) :=
  map_fold (λ k v b, if non_finite v then <[k := None]> b else b)
           benchmarks benchmarks.

(** Lines 138 to 144: the data frame, its means, the clean-up. *)
Definition mean_benchmarks (all_ratios : list (gmap string (option float)))
  : gmap string (option float) :=
  let df := pd_DataFrame all_ratios in
  nan_to_none (to_dict (df_mean_numeric_only df)).

Section Handler.
Context `{Env}.

(** The loop [for corp in req.peers]. *)
Fixpoint peers_loop (year report_code : string) (peers : list string)
    (all_ratios : list (gmap string (option float)))
  : M (list (gmap string (option float))) :=
  match peers with
  | [] => mret all_ratios
  | corp :: rest =>
      data ← get_single_financials corp year report_code;
      if negb (py_eq (resp_status data) "000") then
        peers_loop year report_code rest all_ratios
      else
        let items := default [] (resp_list data) in
        ratios ← lift (compute_ratios_from_items items);
        peers_loop year report_code rest (all_ratios ++ [ratios])
  end.

Definition benchmark_industry (req : BenchmarkRequest) : M BenchmarkResponse :=
  match peers req with
  | None | Some [] => raise MissingPeers
  | Some ps =>
      all_ratios ← peers_loop (year req) (report_code req) ps [];
      match all_ratios with
      | [] => raise NoUsableData
      | _ :: _ =>
          let df := pd_DataFrame all_ratios in
          mret {| source := "dart";
                  year_echo := year req;
                  count_peers := df_len df;
                  benchmarks := mean_benchmarks all_ratios;
                  notes := Some "DART fnlttSinglAcntAll 기반 동종사 평균" |}
      end
  end.

End Handler.

(** ** An interpreter's [float()] on ASCII text

    The grammar of CPython's [float(str)] on ASCII input: white space is
    stripped at both ends, underscores may separate digits, then an optional
    sign and either [inf], [infinity] or [nan] in any letter case, or a
    decimal numeral with optional fraction and exponent.  The numeral is
    rounded to the nearest binary64 number, ties to even; a numeral too
    large becomes an infinity.  Digits and spaces outside ASCII, which
    CPython also takes, are refused here. *)

Definition is_digit (c : ascii) : bool :=
  let n := nat_of_ascii c in (48 <=? n)%nat && (n <=? 57)%nat.

Definition is_space (c : ascii) : bool :=
  let n := nat_of_ascii c in ((9 <=? n)%nat && (n <=? 13)%nat) || (n =? 32)%nat.

Definition to_lower (c : ascii) : ascii :=
  let n := nat_of_ascii c in
  if (65 <=? n)%nat && (n <=? 90)%nat then ascii_of_nat (n + 32) else c.

Fixpoint drop_spaces (s : list ascii) : list ascii :=
  match s with
  | c :: r => if is_space c then drop_spaces r else s
  | [] => []
  end.

Definition strip (s : list ascii) : list ascii :=
  rev (drop_spaces (rev (drop_spaces s))).

(** An underscore must stand between two digits. *)
Fixpoint drop_underscores (prev : ascii) (s : list ascii)
  : option (list ascii) :=
  match s with
  | [] => if Ascii.eqb prev "_" then None else Some []
  | c :: r =>
      if Ascii.eqb c "_" then
        if is_digit prev then drop_underscores c r else None
      else if Ascii.eqb prev "_" && negb (is_digit c) then None
      else cons c <$> drop_underscores c r
  end.

(** Reads a run of digits onto the numeral [acc]; returns the numeral, the
    number of digits read and the rest of the text. *)
Fixpoint read_digits (acc : Z) (n : Z) (s : list ascii) : Z * Z * list ascii :=
  match s with
  | c :: r =>
      if is_digit c then
        read_digits (10 * acc + (Z.of_nat (nat_of_ascii c) - 48)) (n + 1) r
      else (acc, n, s)
  | [] => (acc, n, [])
  end.

Definition read_sign (s : list ascii) : bool * list ascii :=
  match s with
  | c :: r =>
      if Ascii.eqb c "-" then (true, r)
      else if Ascii.eqb c "+" then (false, r)
      else (false, s)
  | [] => (false, [])
  end.

(** The numeral [m * 10 ^ e], as mantissa and decimal exponent. *)
Definition read_decimal (s : list ascii) : option (Z * Z) :=
  let '(m1, n1, r1) := read_digits 0 0 s in
  let '(m2, n2, r2) :=
    match r1 with
    | c :: t => if Ascii.eqb c "." then read_digits m1 0 t else (m1, 0, r1)
    | [] => (m1, 0, r1)
    end in
  if n1 + n2 =? 0 then None
  else
    match r2 with
    | [] => Some (m2, - n2)
    | c :: t =>
        if Ascii.eqb (to_lower c) "e" then
          let '(neg, t') := read_sign t in
          match read_digits 0 0 t' with
          | (x, nx, []) =>
              if nx =? 0 then None
              else Some (m2, (if neg then - x else x) - n2)
          | _ => None
          end
        else None
    end.

(** [m * 10 ^ e] with sign, correctly rounded: one division of two exact
    integers. *)
Definition round_decimal (neg : bool) (m e : Z) : float :=
  SF2Prim
    match m with
    | Zpos p =>
        if 0 <=? e then
          SFdiv prec emax (S754_finite neg (p * Z.to_pos (10 ^ e)) 0)
                          (S754_finite false 1 0)
        else
          SFdiv prec emax (S754_finite neg p 0)
                          (S754_finite false (Z.to_pos (10 ^ (- e))) 0)
    | _ => S754_zero neg
    end.

Definition ascii_float (s : string) : res float :=
  match drop_underscores " " (strip (list_ascii_of_string s)) with
  | None => Raise ValueError
  | Some t =>
      let '(neg, u) := read_sign t in
      let word := string_of_list_ascii (map to_lower u) in
      if String.eqb word "inf" || String.eqb word "infinity" then
        Ok (if neg then neg_infinity else infinity)
      else if String.eqb word "nan" then Ok nan
      else
        match read_decimal u with
        | Some (m, e) => Ok (round_decimal neg m e)
        | None => Raise ValueError
        end
  end.

(** ** Sample data *)

Definition line_item (account_nm thstrm_amount : string) : gmap string pyval :=
  <["account_nm" := PStr account_nm]>
    (<["thstrm_amount" := PStr thstrm_amount]> ∅).

(** The snapshot of the round-trip scenario: interest expense and inventory
    are reported as zero. *)
Definition snapshot_full : list (gmap string pyval) :=
  [ line_item "유동자산" "300"; line_item "유동부채" "100";
    line_item "자산총계" "1,000"; line_item "부채총계" "400";
    line_item "자본총계" "600"; line_item "매출액" "500";
    line_item "영업이익" "50"; line_item "당기순이익" "30";
    line_item "이자비용" "0"; line_item "재고자산" "0" ].

(** Two items carry the label of current assets; one amount is unreadable,
    one item has no amount. *)
Definition snapshot_duplicates : list (gmap string pyval) :=
  [ line_item "유동부채" "1,0x"; line_item "유동자산" "1,234,567";
    line_item "유동자산" "999"; <["account_nm" := PStr "매출액"]> ∅ ].

(** An upstream whose answer depends on the company only. *)
Definition env_of (answer : string → reply) : Env :=
  {| py_float := ascii_float;
     DART_API_KEY := "sample-key";
     upstream := λ _ c, answer (corp_code c) |}.

Definition no_data : response :=
  {| resp_status := PStr "013"; resp_list := None |}.

Definition found (items : list (gmap string pyval)) : response :=
  {| resp_status := PStr "000"; resp_list := Some items |}.

(** A snapshot whose current ratio is infinity over infinity. *)
Definition snapshot_inf : list (gmap string pyval) :=
  [ line_item "유동자산" "1e999"; line_item "유동부채" "1e999" ].

Definition snapshot_two : list (gmap string pyval) :=
  [ line_item "유동자산" "200"; line_item "유동부채" "100" ].

(** A sample upstream: four companies with filings, one of them answering
    without a line-item list, one company whose lookup times out, and no
    data for anybody else. *)
Definition sample_upstream (corp : string) : reply :=
  if String.eqb corp "00126380" then Reply (found snapshot_full)
  else if String.eqb corp "00164779" then Reply (found snapshot_two)
  else if String.eqb corp "00155319" then Reply (found snapshot_inf)
  else if String.eqb corp "00401731" then
    Reply {| resp_status := PStr "000"; resp_list := None |}
  else if String.eqb corp "00999999" then Fault "read timed out"
  else Reply no_data.

Definition sample_env : Env := env_of sample_upstream.

Definition default_metrics : list string :=
  [ "current_ratio"; "debt_ratio"; "interest_coverage"; "oper_margin";
    "net_margin"; "roe"; "roa"; "asset_turnover"; "inventory_turnover" ].

Definition request_for (ps : option (list string)) : BenchmarkRequest :=
  {| year := "2023"; report_code := "11011"; peers := ps;
     industry_code := None; metrics := Some default_metrics |}.

(** Two requests for the company of [snapshot_full] that differ in the two
    optional fields only; the first one asks for two ratios by name. *)
Definition request_two_metrics : BenchmarkRequest :=
  {| year := "2023"; report_code := "11011"; peers := Some ["00126380"];
     industry_code := None;
     metrics := Some ["interest_coverage"; "inventory_turnover"] |}.

Definition request_with_industry : BenchmarkRequest :=
  {| year := "2023"; report_code := "11011"; peers := Some ["00126380"];
     industry_code := Some "C26"; metrics := None |}.

(** The ratio set of a sample snapshot. *)
Definition ratios_of (items : list (gmap string pyval))
  : gmap string (option float) :=
  match @compute_ratios_from_items sample_env items with
  | Ok rs => rs
  | Raise _ => ∅
  end.

(** ** The null-safe division, in the words of the specification *)

Definition div_spec (a b : option float) : option float :=
  match a, b with
  | None, _ => None
  | _, None => None
  | Some x, Some y =>
      if PrimFloat.eqb y 0 then None else Some (PrimFloat.div x y)
  end.

(** Absent, or equal to zero as a number. *)
Definition absent_or_zero (v : option float) : Prop :=
  v = None ∨ ∃ x, v = Some x ∧ PrimFloat.eqb x 0 = true.

(** The label of a line item is exactly [name]. *)
Definition has_label (it : gmap string pyval) (name : string) : Prop :=
  it !! "account_nm" = Some (PStr name).

(** ** The mean of a ratio, in the words of the specification *)

(** A non-finite mean becomes absent. *)
Definition finite_or_absent (x : float) : option float :=
  if PrimFloat.is_nan x || PrimFloat.is_infinity x then None else Some x.

(** The values of ratio [k] over the peers where it is present. *)
Definition present_values (k : string)
    (rows : list (gmap string (option float))) : list float :=
  omap (λ row : gmap string (option float), mjoin (row !! k)) rows.

(** The same, without the values that are not a number. *)
Definition number_values (k : string)
    (rows : list (gmap string (option float))) : list float :=
  List.filter notnan (present_values k rows).

(** The nine ratio names. *)
Definition ratio_names : gset string :=
  {[ "current_ratio"; "debt_ratio"; "oper_margin"; "net_margin"; "roe";
     "roa"; "asset_turnover"; "inventory_turnover"; "interest_coverage" ]}.

(** ** Vocabulary of the further properties *)

(** The ten account labels that [compute_ratios_from_items] looks up. *)
Definition account_names : list string :=
  [ "유동자산"; "유동부채"; "자산총계"; "부채총계"; "자본총계";
    "매출액"; "영업이익"; "당기순이익"; "이자비용"; "재고자산" ].

(** The test of the loop of [extract_amount]. *)
Definition label_is (name : string) (it : gmap string pyval) : bool :=
  py_eq (dict_get it "account_nm") name.

(** Two line items agree on the two fields that extraction reads. *)
Definition same_label_and_amount (it1 it2 : gmap string pyval) : Prop :=
  dict_get it1 "account_nm" = dict_get it2 "account_nm" ∧
  dict_get it1 "thstrm_amount" = dict_get it2 "thstrm_amount".



Section Vocabulary.
Context `{Env}.

(** The extracted amount, as a plain optional number. *)
Definition amount (items : list (gmap string pyval)) (name : string)
  : option float :=
  match extract_amount items name with
  | Ok v => v
  | Raise _ => None
  end.



End Vocabulary.

(** A line item as the upstream sends it, with fields that extraction does
    not read. *)
Definition long_item (account_nm thstrm_amount frmtrm_amount : string)
  : gmap string pyval :=
  <["rcept_no" := PStr "20240314000123"]>
    (<["sj_div" := PStr "BS"]>
    (<["frmtrm_amount" := PStr frmtrm_amount]>
    (line_item account_nm thstrm_amount))).

(** * Properties *)

Lemma res_bind_ok {A B} (a : A) (f : A → res B) : (Ok a ≫= f) = f a.
Proof. reflexivity. Qed.

Lemma py_eq_has_label it name :
  py_eq (dict_get it "account_nm") name = true ↔ has_label it name.
Proof.
  unfold has_label, dict_get, py_eq.
  destruct (it !! "account_nm") as [[|s]|]; simpl; split; try discriminate.
  - intros E. apply String.eqb_eq in E. by subst.
  - intros [= ->]. apply String.eqb_refl.
Qed.

Lemma py_eq_false_iff it name :
  py_eq (dict_get it "account_nm") name = false ↔ ¬ has_label it name.
Proof.
  rewrite <- py_eq_has_label. destruct (py_eq _ _); split; congruence.
Qed.

Lemma div_refines (a b : option float) : div a b = Ok (div_spec a b).
Proof.
  destruct a as [x|], b as [y|]; simpl; try reflexivity.
  unfold py_truediv.
  destruct (PrimFloat.eqb y 0) eqn:E; reflexivity.
Qed.

(** C2: [div a b] never raises and returns what the specification's
    null-safe division says: absent when [a] is absent, when [b] is absent
    or when [b] equals zero, and [a / b] otherwise. *)
Theorem div_null_safe (a b : option float) :
  div a b = Ok (div_spec a b) ∧
  div a b = Ok match a, b with
               | Some x, Some y =>
                   if PrimFloat.eqb y 0 then None
                   else Some (PrimFloat.div x y)
               | _, _ => None
               end.
Proof.
  split; [apply div_refines|].
  rewrite div_refines. by destruct a, b.
Qed.

(** [str_remove] keeps the other characters, in order. *)
Lemma str_remove_filter (c : ascii) (s : string) :
  list_ascii_of_string (str_remove c s)
  = List.filter (λ a, negb (Ascii.eqb a c)) (list_ascii_of_string s).
Proof.
  induction s as [|a s IH]; simpl; [done|].
  destruct (Ascii.eqb a c); simpl; by rewrite IH.
Qed.

Section Extraction.
Context `{Env}.

Lemma extract_amount_ok items name : ∃ v, extract_amount items name = Ok v.
Proof.
  induction items as [|it rest IH]; simpl; [by eexists|].
  destruct (py_eq _ _); [|done].
  destruct (negb _); [by eexists|].
  destruct (py_float _); by eexists.
Qed.

Lemma extract_amount_skip pre rest name :
  Forall (λ it, ¬ has_label it name) pre →
  extract_amount (pre ++ rest) name = extract_amount rest name.
Proof.
  induction 1 as [|it pre Hit _ IH]; simpl; [done|].
  apply py_eq_false_iff in Hit. by rewrite Hit.
Qed.

(** C8: extraction returns absent when no item carries the label; otherwise
    the first item carrying it decides alone, whatever follows it: absent
    when its amount is missing, null or empty, absent when [float()]
    refuses the amount with its commas removed, and the parsed number
    otherwise.  No outcome is an exception. *)
Theorem extract_amount_first_match items name :
  (Forall (λ it, ¬ has_label it name) items →
   extract_amount items name = Ok None) ∧
  (∀ pre it post,
     items = pre ++ it :: post →
     Forall (λ i, ¬ has_label i name) pre →
     has_label it name →
     (dict_get it "thstrm_amount" = PNone ∨
      dict_get it "thstrm_amount" = PStr "" →
      extract_amount items name = Ok None) ∧
     (∀ raw, it !! "thstrm_amount" = Some (PStr raw) → raw ≠ "" →
        extract_amount items name =
        match py_float (str_remove "," raw) with
        | Ok x => Ok (Some x)
        | Raise _ => Ok None
        end)).
Proof.
  split.
  - intros Hno. rewrite <- (app_nil_r items).
    by rewrite extract_amount_skip.
  - intros pre it post -> Hpre Hit.
    rewrite extract_amount_skip by done. simpl.
    apply py_eq_has_label in Hit. rewrite Hit. split.
    + by intros [-> | ->].
    + intros raw Hraw Hne. unfold dict_get. rewrite Hraw. simpl.
      destruct (String.eqb raw "") eqn:E; [|done].
      by apply String.eqb_eq in E.
Qed.

End Extraction.

Lemma extract_amount_first_match_witness :
  @extract_amount sample_env snapshot_duplicates "유동자산"
  = Ok (Some 1234567%float).
Proof.
  pose proof (@extract_amount_first_match sample_env
                snapshot_duplicates "유동자산") as [_ Hfirst].
  specialize (Hfirst [line_item "유동부채" "1,0x"]
                (line_item "유동자산" "1,234,567")
                [line_item "유동자산" "999";
                 <["account_nm" := PStr "매출액"]> ∅]
                eq_refl).
  destruct Hfirst as [_ Hparse].
  - repeat constructor. unfold has_label. vm_compute. discriminate.
  - unfold has_label. vm_compute. reflexivity.
  - rewrite (Hparse "1,234,567").
    + vm_compute. reflexivity.
    + vm_compute. reflexivity.
    + discriminate.
Defined.

Section Ratios.
Context `{Env}.

(** The nine ratios as a function of the ten extracted amounts. *)
Lemma compute_ratios_inv items :
  ∃ current_assets current_liab total_assets total_liab total_equity
    revenue op_income net_income interest_exp inventory,
    extract_amount items "유동자산" = Ok current_assets ∧
    extract_amount items "유동부채" = Ok current_liab ∧
    extract_amount items "자산총계" = Ok total_assets ∧
    extract_amount items "부채총계" = Ok total_liab ∧
    extract_amount items "자본총계" = Ok total_equity ∧
    extract_amount items "매출액" = Ok revenue ∧
    extract_amount items "영업이익" = Ok op_income ∧
    extract_amount items "당기순이익" = Ok net_income ∧
    extract_amount items "이자비용" = Ok interest_exp ∧
    extract_amount items "재고자산" = Ok inventory ∧
    compute_ratios_from_items items =
    Ok (<["current_ratio" := div_spec current_assets current_liab]>
       (<["debt_ratio" := div_spec total_liab total_equity]>
       (<["oper_margin" := div_spec op_income revenue]>
       (<["net_margin" := div_spec net_income revenue]>
       (<["roe" := div_spec net_income total_equity]>
       (<["roa" := div_spec net_income total_assets]>
       (<["asset_turnover" := div_spec revenue total_assets]>
       (<["inventory_turnover" :=
            if truthy_float inventory then div_spec revenue inventory
            else None]>
       (<["interest_coverage" :=
            if truthy_float interest_exp then div_spec op_income interest_exp
            else None]> ∅))))))))).
Proof.
  unfold compute_ratios_from_items.
  destruct (extract_amount_ok items "유동자산") as [v1 E1].
  destruct (extract_amount_ok items "유동부채") as [v2 E2].
  destruct (extract_amount_ok items "자산총계") as [v3 E3].
  destruct (extract_amount_ok items "부채총계") as [v4 E4].
  destruct (extract_amount_ok items "자본총계") as [v5 E5].
  destruct (extract_amount_ok items "매출액") as [v6 E6].
  destruct (extract_amount_ok items "영업이익") as [v7 E7].
  destruct (extract_amount_ok items "당기순이익") as [v8 E8].
  destruct (extract_amount_ok items "이자비용") as [v9 E9].
  destruct (extract_amount_ok items "재고자산") as [v10 E10].
  exists v1, v2, v3, v4, v5, v6, v7, v8, v9, v10.
  rewrite E1, E2, E3, E4, E5, E6, E7, E8, E9, E10.
  repeat (split; [reflexivity|]).
  rewrite !res_bind_ok, !div_refines, !res_bind_ok.
  destruct (truthy_float v10), (truthy_float v9);
    rewrite ?div_refines, ?res_bind_ok; reflexivity.
Qed.


Lemma truthy_float_absent_or_zero v : absent_or_zero v → truthy_float v = false.
Proof. intros [-> | (x & -> & E)]; simpl; [done|]. by rewrite E. Qed.

(** C3: the ratios are always computed (no exception), and in the result
    [inventory_turnover] is bound to absent whenever the extracted
    inventory is absent or zero, [interest_coverage] whenever the extracted
    interest expense is absent or zero, whatever the other amounts are. *)
Theorem zero_denominator_short_circuit items :
  ∃ rs, compute_ratios_from_items items = Ok rs ∧
    (∀ inventory, extract_amount items "재고자산" = Ok inventory →
       absent_or_zero inventory → rs !! "inventory_turnover" = Some None) ∧
    (∀ interest_exp, extract_amount items "이자비용" = Ok interest_exp →
       absent_or_zero interest_exp → rs !! "interest_coverage" = Some None).
Proof.
  destruct (compute_ratios_inv items)
    as (ca&cl&ta&tl&te&rev&op&ni&ie&inv&_&_&_&_&_&_&_&_&Eie&Einv&E).
  eexists. split; [exact E|]. split.
  - intros v Ev Hv. rewrite Einv in Ev. injection Ev as <-.
    rewrite (truthy_float_absent_or_zero _ Hv). reflexivity.
  - intros v Ev Hv. rewrite Eie in Ev. injection Ev as <-.
    rewrite (truthy_float_absent_or_zero _ Hv). reflexivity.
Qed.

End Ratios.

(** ** The data frame and its means *)

Section Aggregation.
Implicit Types (rows : list (gmap string (option float))) (k : string).

Lemma df_columns_lookup rows k :
  df_columns (pd_DataFrame rows) !! k =
  if decide (k ∈ ⋃ (dom <$> rows))
  then Some (infer_column (map (cell_of k) rows)) else None.
Proof.
  unfold pd_DataFrame; simpl.
  rewrite map_lookup_imap, lookup_gset_to_gmap.
  case_decide; [by rewrite option_guard_True | by rewrite option_guard_False].
Qed.


Lemma filter_notnan_cells rows k :
  List.filter notnan (map (default nan) (map (cell_of k) rows))
  = number_values k rows.
Proof.
  unfold number_values, present_values.
  induction rows as [|row rows IH]; [done|].
  assert (cell_of k row = match row !! k with
                          | None => Some nan
                          | Some v => v
                          end) as Hcell by reflexivity.
  csimpl. rewrite Hcell.
  destruct (row !! k) as [[x|]|]; simpl; rewrite IH; reflexivity.
Qed.


Lemma forallb_is_None_cells rows k :
  forallb is_None (map (cell_of k) rows) = true ↔
  ∀ row, row ∈ rows → row !! k = Some None.
Proof.
  induction rows as [|row rows IH]; simpl.
  - split; [|done]. intros _ row Hrow. by apply elem_of_nil in Hrow.
  - rewrite andb_true_iff, IH. unfold cell_of at 1. split.
    + intros [Hrow Hall] r Hr. apply elem_of_cons in Hr as [-> | Hr]; [|auto].
      by destruct (row !! k) as [[x|]|].
    + intros Hall. split.
      * rewrite (Hall row); [done|left].
      * intros r Hr. apply Hall. by right.
Qed.

(** The clean-up loop amounts to a pointwise map. *)
Lemma nan_to_none_lookup (m : gmap string (option float)) k :
  nan_to_none m !! k = (λ v, if non_finite v then None else v) <$> m !! k.
Proof.
  unfold nan_to_none.
  assert (∀ b0 : gmap string (option float),
    map_fold (λ k v b, if non_finite v then <[k := None]> b else b) b0 m !! k
    = match m !! k with
      | Some v => if non_finite v then Some None else b0 !! k
      | None => b0 !! k
      end) as Hgen.
  { intros b0.
    apply (map_fold_weak_ind (λ r m', r !! k = match m' !! k with
      | Some v => if non_finite v then Some None else b0 !! k
      | None => b0 !! k end)).
    - by rewrite lookup_empty.
    - intros i x m' r Hi IH.
      destruct (decide (i = k)) as [->|Hne].
      + rewrite lookup_insert_eq. rewrite Hi in IH.
        destruct (non_finite x); [by rewrite lookup_insert_eq | done].
      + rewrite lookup_insert_ne by done.
        destruct (non_finite x); [by rewrite lookup_insert_ne | done]. }
  rewrite Hgen. destruct (m !! k) as [v|]; simpl; [|done].
  by destruct (non_finite v).
Qed.

(** What the aggregation binds a ratio name to. *)
Lemma mean_benchmarks_lookup rows k :
  mean_benchmarks rows !! k =
  if decide (k ∈ ⋃ (dom <$> rows)) then
    if forallb is_None (map (cell_of k) rows) then None
    else Some (finite_or_absent
                 (nanmean (map (default nan) (map (cell_of k) rows))))
  else None.
Proof.
  unfold mean_benchmarks, to_dict, df_mean_numeric_only.
  rewrite nan_to_none_lookup, lookup_fmap, lookup_omap, df_columns_lookup.
  case_decide; [|done]. simpl. unfold infer_column.
  destruct (forallb _ _); reflexivity.
Qed.

(** A ratio that no peer has a float for is not a key of the result. *)
Lemma mean_benchmarks_all_absent rows k :
  (∀ row, row ∈ rows → row !! k = Some None) →
  mean_benchmarks rows !! k = None.
Proof.
  intros Hall. rewrite mean_benchmarks_lookup.
  rewrite (proj2 (forallb_is_None_cells _ _) Hall). by case_decide.
Qed.

(** No bound value is not-a-number or infinite. *)
Lemma mean_benchmarks_finite rows k x :
  mean_benchmarks rows !! k = Some (Some x) →
  PrimFloat.is_nan x = false ∧ PrimFloat.is_infinity x = false.
Proof.
  rewrite mean_benchmarks_lookup. case_decide; [|done].
  destruct (forallb _ _); [done|]. unfold finite_or_absent.
  destruct (PrimFloat.is_nan _ || PrimFloat.is_infinity _) eqn:E; [done|].
  intros [= <-]. by apply orb_false_iff in E.
Qed.


End Aggregation.

Lemma zero_denominator_short_circuit_witness :
  ∃ rs, @compute_ratios_from_items sample_env snapshot_full = Ok rs ∧
        rs !! "inventory_turnover" = Some None ∧
        rs !! "interest_coverage" = Some None.
Proof.
  destruct (@zero_denominator_short_circuit sample_env snapshot_full)
    as (rs & Hrs & Hinv & Hint).
  exists rs. split; [exact Hrs|]. split.
  - apply (Hinv (Some 0%float)).
    + vm_compute. reflexivity.
    + right. exists 0%float. split; reflexivity.
  - apply (Hint (Some 0%float)).
    + vm_compute. reflexivity.
    + right. exists 0%float. split; reflexivity.
Defined.

(** The round-trip scenario of the specification. *)
Example round_trip_scenario :
  ratios_of snapshot_full !! "current_ratio" = Some (Some 3%float) ∧
  ratios_of snapshot_full !! "debt_ratio"
    = Some (Some (PrimFloat.div 400 600)) ∧
  ratios_of snapshot_full !! "oper_margin" = Some (Some (PrimFloat.div 50 500)) ∧
  ratios_of snapshot_full !! "net_margin" = Some (Some (PrimFloat.div 30 500)) ∧
  ratios_of snapshot_full !! "roe" = Some (Some (PrimFloat.div 30 600)) ∧
  ratios_of snapshot_full !! "roa" = Some (Some (PrimFloat.div 30 1000)) ∧
  ratios_of snapshot_full !! "asset_turnover" = Some (Some 0.5%float) ∧
  ratios_of snapshot_full !! "inventory_turnover" = Some None ∧
  ratios_of snapshot_full !! "interest_coverage" = Some None.
Proof. vm_compute. repeat split. Qed.

(** A ratio that is present and not a number: infinity over infinity. *)
Example nan_ratio_is_reachable :
  ratios_of snapshot_inf !! "current_ratio" = Some (Some nan).
Proof. vm_compute. reflexivity. Qed.







(** ** The handler *)

Section HandlerProps.
Context `{Env}.

Lemma py_eq_status v : py_eq v "000" = false ↔ v ≠ PStr "000".
Proof.
  destruct v as [|s]; simpl; [done|].
  destruct (String.eqb s "000") eqn:E.
  - apply String.eqb_eq in E. subst. split; [done|]. by intros [].
  - apply String.eqb_neq in E. split; [|done]. intros _ [= ->]. done.
Qed.

(** One turn of the loop. *)
Lemma peers_loop_cons year rc corp rest acc tr :
  peers_loop year rc (corp :: rest) acc tr =
  let c := mk_call corp year rc in
  match upstream tr c with
  | Fault msg => (tr ++ [c], Raise (RequestError msg))
  | Reply data =>
      if negb (py_eq (resp_status data) "000") then
        peers_loop year rc rest acc (tr ++ [c])
      else
        match compute_ratios_from_items (default [] (resp_list data)) with
        | Ok rs => peers_loop year rc rest (acc ++ [rs]) (tr ++ [c])
        | Raise e => (tr ++ [c], Raise e)
        end
  end.
Proof.
  simpl. unfold mbind, M_bind, get_single_financials, lift.
  destruct (upstream tr _) as [data|msg]; [|done].
  destruct (negb _); [done|].
  by destruct (compute_ratios_from_items _).
Qed.

Lemma peers_loop_app year rc pre post acc tr :
  peers_loop year rc (pre ++ post) acc tr =
  match peers_loop year rc pre acc tr with
  | (tr1, Ok acc1) => peers_loop year rc post acc1 tr1
  | (tr1, Raise e) => (tr1, Raise e)
  end.
Proof.
  revert acc tr. induction pre as [|corp pre IH]; intros acc tr; [done|].
  rewrite <- app_comm_cons, !peers_loop_cons. cbv zeta.
  destruct (upstream tr _) as [data|msg]; [|done].
  destruct (negb _); [apply IH|].
  destruct (compute_ratios_from_items _); [apply IH|done].
Qed.


(** The handler, by cases. *)
Lemma benchmark_industry_eq req tr :
  benchmark_industry req tr =
  match peers req with
  | None | Some [] => (tr, Raise MissingPeers)
  | Some ps =>
      match peers_loop (year req) (report_code req) ps [] tr with
      | (tr', Ok []) => (tr', Raise NoUsableData)
      | (tr', Ok all_ratios) =>
          (tr', Ok {| source := "dart";
                      year_echo := year req;
                      count_peers := length all_ratios;
                      benchmarks := mean_benchmarks all_ratios;
                      notes := Some "DART fnlttSinglAcntAll 기반 동종사 평균" |})
      | (tr', Raise e) => (tr', Raise e)
      end
  end.
Proof.
  unfold benchmark_industry.
  destruct (peers req) as [[|p ps]|]; try reflexivity.
  unfold mbind, M_bind.
  destruct (peers_loop _ _ _ _ _) as [tr' [[|rs all_ratios]|e]]; reflexivity.
Qed.

(** C6: a request whose peer list is absent or empty is rejected with the
    client error 400 and its explanatory message, and the list of outbound
    lookups is left as it was: no lookup is made. *)
Theorem missing_peers_rejected req tr :
  peers req = None ∨ peers req = Some [] →
  benchmark_industry req tr = (tr, Raise MissingPeers) ∧
  ∃ detail, MissingPeers = HTTPException 400 detail ∧ detail ≠ "".
Proof.
  intros Hp. split.
  - rewrite benchmark_industry_eq. by destruct Hp as [-> | ->].
  - eexists. split; [reflexivity|discriminate].
Qed.

(** C5: when the loop over a non-empty peer list collects no ratio set, the
    request fails with error 404, and no successful result counts zero
    peers. *)
Theorem no_usable_data_rejected req tr :
  (∀ ps tr',
     peers req = Some ps → ps ≠ [] →
     peers_loop (year req) (report_code req) ps [] tr = (tr', Ok []) →
     benchmark_industry req tr = (tr', Raise NoUsableData)) ∧
  (∀ tr' resp,
     benchmark_industry req tr = (tr', Ok resp) → count_peers resp ≠ 0%nat).
Proof.
  split.
  - intros ps tr' Hp Hne Hloop. rewrite benchmark_industry_eq, Hp.
    destruct ps; [done|]. by rewrite Hloop.
  - intros tr' resp. rewrite benchmark_industry_eq.
    destruct (peers req) as [[|p ps]|]; try discriminate.
    destruct (peers_loop _ _ _ _ _) as [tr1 [[|rs all_ratios]|e]];
      try discriminate.
    by intros [= _ <-].
Qed.

(** C7: a peer whose response carries a status other than ["000"] is
    skipped: the loop goes on with the remaining peers and the same
    collected list, whatever the response holds besides the status. *)
Theorem non_success_status_skipped year rc corp rest acc tr data :
  upstream tr (mk_call corp year rc) = Reply data →
  resp_status data ≠ PStr "000" →
  peers_loop year rc (corp :: rest) acc tr
  = peers_loop year rc rest acc (tr ++ [mk_call corp year rc]).
Proof.
  intros Hup Hst. rewrite peers_loop_cons. cbv zeta. rewrite Hup.
  apply py_eq_status in Hst. by rewrite Hst.
Qed.

End HandlerProps.

Lemma missing_peers_rejected_witness :
  @benchmark_industry sample_env (request_for None) [] = ([], Raise MissingPeers) ∧
  @benchmark_industry sample_env (request_for (Some [])) []
  = ([], Raise MissingPeers).
Proof.
  split.
  - apply (@missing_peers_rejected sample_env (request_for None) []).
    left. reflexivity.
  - apply (@missing_peers_rejected sample_env (request_for (Some [])) []).
    right. reflexivity.
Defined.

Lemma no_usable_data_rejected_witness :
  (∃ tr', @benchmark_industry sample_env
            (request_for (Some ["00100001"; "00100002"])) []
          = (tr', Raise NoUsableData) ∧ length tr' = 2%nat) ∧
  (∀ tr' resp,
     @benchmark_industry sample_env (request_for (Some ["00126380"])) []
     = (tr', Ok resp) → count_peers resp ≠ 0%nat).
Proof.
  split.
  - eexists. split.
    + apply (proj1 (@no_usable_data_rejected sample_env
                      (request_for (Some ["00100001"; "00100002"])) [])
               ["00100001"; "00100002"]).
      * reflexivity.
      * discriminate.
      * vm_compute. reflexivity.
    + reflexivity.
  - apply (proj2 (@no_usable_data_rejected sample_env
                    (request_for (Some ["00126380"])) [])).
Defined.

Lemma non_success_status_skipped_witness :
  @peers_loop sample_env "2023" "11011" ["00100001"; "00126380"] [] []
  = @peers_loop sample_env "2023" "11011" ["00126380"] []
      [@mk_call sample_env "00100001" "2023" "11011"].
Proof.
  apply (@non_success_status_skipped sample_env "2023" "11011" "00100001"
           ["00126380"] [] [] no_data).
  - reflexivity.
  - discriminate.
Defined.

Section Counting.
Context `{Env}.

Lemma compute_ratios_nil :
  compute_ratios_from_items [] =
  Ok (<["current_ratio" := None]>
     (<["debt_ratio" := None]>
     (<["oper_margin" := None]>
     (<["net_margin" := None]>
     (<["roe" := None]>
     (<["roa" := None]>
     (<["asset_turnover" := None]>
     (<["inventory_turnover" := None]>
     (<["interest_coverage" := None]> ∅))))))))).
Proof. reflexivity. Qed.


(** The two optional fields of a request are never read. *)
Lemma unused_fields_have_no_effect req1 req2 tr :
  year req1 = year req2 →
  report_code req1 = report_code req2 →
  peers req1 = peers req2 →
  benchmark_industry req1 tr = benchmark_industry req2 tr.
Proof.
  destruct req1, req2; simpl. intros -> -> ->. reflexivity.
Qed.

(** Every collected ratio set binds the nine names, whatever the request
    lists. *)
Lemma compute_ratios_names items rs :
  compute_ratios_from_items items = Ok rs → dom rs = ratio_names.
Proof.
  destruct (compute_ratios_inv items)
    as (?&?&?&?&?&?&?&?&?&?&_&_&_&_&_&_&_&_&_&_&E).
  rewrite E. intros [= <-]. unfold ratio_names.
  rewrite !dom_insert_L, dom_empty_L. set_solver.
Qed.

End Counting.


(** C1: evaluated on the round-trip snapshot, whose interest expense and
    inventory are zero.  The one collected ratio set binds
    [interest_coverage] and [inventory_turnover] to absent; the benchmarks
    returned for it have no such keys at all, while the other seven names
    are bound to their means. *)
Theorem absent_ratio_is_missing_key :
  ratios_of snapshot_full !! "interest_coverage" = Some None ∧
  ratios_of snapshot_full !! "inventory_turnover" = Some None ∧
  mean_benchmarks [ratios_of snapshot_full] !! "interest_coverage" = None ∧
  mean_benchmarks [ratios_of snapshot_full] !! "inventory_turnover" = None ∧
  mean_benchmarks [ratios_of snapshot_full] !! "current_ratio"
  = Some (Some 3%float) ∧
  dom (mean_benchmarks [ratios_of snapshot_full])
  = ratio_names ∖ {[ "interest_coverage"; "inventory_turnover" ]} ∧
  ∃ tr resp,
    @benchmark_industry sample_env (request_for (Some ["00126380"])) []
    = (tr, Ok resp) ∧
    count_peers resp = 1%nat ∧
    benchmarks resp !! "interest_coverage" = None ∧
    benchmarks resp !! "inventory_turnover" = None.
Proof.
  do 5 (split; [vm_compute; reflexivity|]).
  split; [apply (bool_decide_unpack _); vm_compute; exact I|].
  eexists _, _. split; [vm_compute; reflexivity|].
  split; [reflexivity|]. split; vm_compute; reflexivity.
Qed.

(** C9: evaluated on two requests that differ in [industry_code] and
    [metrics] only.  Their outcomes are equal, and all nine ratios are
    computed for the peer; but the two ratios the first request asks for by
    name are not among the keys returned. *)
Theorem requested_ratios_not_returned :
  @benchmark_industry sample_env request_two_metrics []
  = @benchmark_industry sample_env request_with_industry [] ∧
  dom (ratios_of snapshot_full) = ratio_names ∧
  ∃ tr resp,
    @benchmark_industry sample_env request_two_metrics [] = (tr, Ok resp) ∧
    benchmarks resp !! "interest_coverage" = None ∧
    benchmarks resp !! "inventory_turnover" = None ∧
    dom (benchmarks resp)
    = ratio_names ∖ {[ "interest_coverage"; "inventory_turnover" ]}.
Proof.
  split; [apply unused_fields_have_no_effect; reflexivity|].
  split; [apply (bool_decide_unpack _); vm_compute; exact I|].
  eexists _, _. split; [vm_compute; reflexivity|].
  do 2 (split; [vm_compute; reflexivity|]).
  apply (bool_decide_unpack _). vm_compute. exact I.
Qed.

(** * Further properties of extraction and ratios *)

Section ExtractionMore.
Context `{Env}.

(** Only the items carrying the label take part, in their order. *)
Lemma extract_amount_filter items name :
  extract_amount items name
  = extract_amount (List.filter (label_is name) items) name.
Proof.
  induction items as [|it rest IH]; [done|].
  simpl. unfold label_is at 1.
  destruct (py_eq (dict_get it "account_nm") name) eqn:E; [|exact IH].
  simpl. by rewrite E.
Qed.

Lemma extract_amount_head it1 it2 post1 post2 name raw1 raw2 :
  has_label it1 name → has_label it2 name →
  it1 !! "thstrm_amount" = Some (PStr raw1) →
  it2 !! "thstrm_amount" = Some (PStr raw2) →
  raw1 ≠ "" → raw2 ≠ "" →
  str_remove "," raw1 = str_remove "," raw2 →
  extract_amount (it1 :: post1) name = extract_amount (it2 :: post2) name.
Proof.
  intros H1 H2 E1 E2 N1 N2 Eq. simpl.
  apply py_eq_has_label in H1, H2. rewrite H1, H2.
  unfold dict_get. rewrite E1, E2. simpl.
  apply String.eqb_neq in N1, N2. rewrite N1, N2. simpl. by rewrite Eq.
Qed.

(** X1: thousands separators do not matter.  Two snapshots that begin alike
    and continue with items of the same label whose non-empty amounts differ
    in commas only extract the same amount, whatever follows. *)
Theorem commas_do_not_matter pre it1 it2 post1 post2 name raw1 raw2 :
  has_label it1 name → has_label it2 name →
  it1 !! "thstrm_amount" = Some (PStr raw1) →
  it2 !! "thstrm_amount" = Some (PStr raw2) →
  raw1 ≠ "" → raw2 ≠ "" →
  str_remove "," raw1 = str_remove "," raw2 →
  extract_amount (pre ++ it1 :: post1) name
  = extract_amount (pre ++ it2 :: post2) name.
Proof.
  intros H1 H2 E1 E2 N1 N2 Eq.
  induction pre as [|it pre IH].
  - by apply (extract_amount_head it1 it2 post1 post2 name raw1 raw2).
  - rewrite <- !app_comm_cons. simpl.
    destruct (py_eq (dict_get it "account_nm") name); [reflexivity|exact IH].
Qed.

End ExtractionMore.

Lemma commas_do_not_matter_witness :
  @extract_amount sample_env
    [line_item "유동부채" "100"; line_item "유동자산" "1,234,567"] "유동자산"
  = @extract_amount sample_env
      [line_item "유동부채" "100"; line_item "유동자산" "1234567";
       line_item "유동자산" "5"] "유동자산".
Proof.
  apply (@commas_do_not_matter sample_env [line_item "유동부채" "100"]
           (line_item "유동자산" "1,234,567") (line_item "유동자산" "1234567")
           [] [line_item "유동자산" "5"] "유동자산" "1,234,567" "1234567");
    try (vm_compute; reflexivity); discriminate.
Defined.

Section RatiosMore.
Context `{Env}.

Lemma amount_eq items name v : extract_amount items name = Ok v → amount items name = v.
Proof. unfold amount. by intros ->. Qed.

(** The guard on the denominator repeats what the division checks. *)
Lemma guard_is_redundant (a b : option float) :
  (if truthy_float b then div_spec a b else None) = div_spec a b.
Proof.
  destruct a as [x|], b as [y|]; simpl; try done.
  - by destruct (PrimFloat.eqb y 0).
  - by destruct (negb _).
Qed.

(** X2: the ratio set is always produced, has exactly the nine names as
    keys, and binds every name to the null-safe quotient of two extracted
    amounts.  The two guarded ratios follow the same rule as the seven
    others: the truth test on their denominator changes no result. *)
Theorem ratio_formulas items :
  ∃ rs, compute_ratios_from_items items = Ok rs ∧
    dom rs = ratio_names ∧
    rs !! "current_ratio"
    = Some (div_spec (amount items "유동자산") (amount items "유동부채")) ∧
    rs !! "debt_ratio"
    = Some (div_spec (amount items "부채총계") (amount items "자본총계")) ∧
    rs !! "oper_margin"
    = Some (div_spec (amount items "영업이익") (amount items "매출액")) ∧
    rs !! "net_margin"
    = Some (div_spec (amount items "당기순이익") (amount items "매출액")) ∧
    rs !! "roe"
    = Some (div_spec (amount items "당기순이익") (amount items "자본총계")) ∧
    rs !! "roa"
    = Some (div_spec (amount items "당기순이익") (amount items "자산총계")) ∧
    rs !! "asset_turnover"
    = Some (div_spec (amount items "매출액") (amount items "자산총계")) ∧
    rs !! "inventory_turnover"
    = Some (div_spec (amount items "매출액") (amount items "재고자산")) ∧
    rs !! "interest_coverage"
    = Some (div_spec (amount items "영업이익") (amount items "이자비용")).
Proof.
  destruct (compute_ratios_inv items)
    as (ca&cl&ta&tl&te&rev&op&ni&ie&inv&E1&E2&E3&E4&E5&E6&E7&E8&E9&E10&E).
  rewrite !guard_is_redundant in E.
  eexists. split; [exact E|].
  split; [exact (compute_ratios_names _ _ E)|].
  rewrite (amount_eq _ _ _ E1), (amount_eq _ _ _ E2), (amount_eq _ _ _ E3),
    (amount_eq _ _ _ E4), (amount_eq _ _ _ E5), (amount_eq _ _ _ E6),
    (amount_eq _ _ _ E7), (amount_eq _ _ _ E8), (amount_eq _ _ _ E9),
    (amount_eq _ _ _ E10).
  repeat split; reflexivity.
Qed.

(** The ratios read the snapshot through the ten extractions only. *)
Lemma compute_ratios_ext items items' :
  Forall (λ name, extract_amount items name = extract_amount items' name)
         account_names →
  compute_ratios_from_items items = compute_ratios_from_items items'.
Proof.
  unfold account_names. intros Hall.
  repeat (apply Forall_cons in Hall as [? Hall]).
  cbv beta in *. unfold compute_ratios_from_items.
  repeat match goal with
         | Hx : extract_amount items _ = _ |- _ => rewrite Hx; clear Hx
         end.
  reflexivity.
Qed.

Lemma extract_amount_without pre it post name :
  label_is name it = false →
  extract_amount (pre ++ it :: post) name = extract_amount (pre ++ post) name.
Proof.
  intros Hit.
  rewrite (extract_amount_filter (pre ++ it :: post)),
    (extract_amount_filter (pre ++ post)).
  rewrite !List.filter_app. simpl. by rewrite Hit.
Qed.

(** X3: a line item whose label is none of the ten account names has no
    influence: the ratios are those of the snapshot without it. *)
Theorem unrelated_item_ignored pre it post :
  Forall (λ name, label_is name it = false) account_names →
  compute_ratios_from_items (pre ++ it :: post)
  = compute_ratios_from_items (pre ++ post).
Proof.
  intros Hit. apply compute_ratios_ext.
  eapply Forall_impl; [exact Hit|]. intros name Hname.
  by apply extract_amount_without.
Qed.

Lemma extract_amount_same_fields items items' name :
  Forall2 same_label_and_amount items items' →
  extract_amount items name = extract_amount items' name.
Proof.
  induction 1 as [|it it' items items' [Hl Ha] _ IH]; [done|].
  simpl. rewrite Hl, Ha, IH. reflexivity.
Qed.

(** X4: of a line item only the label and the current-period amount are
    read.  Two snapshots whose items agree pairwise on these two fields give
    the same ratios, whatever their other fields hold. *)
Theorem other_fields_ignored items items' :
  Forall2 same_label_and_amount items items' →
  compute_ratios_from_items items = compute_ratios_from_items items'.
Proof.
  intros Hsame. apply compute_ratios_ext, Forall_forall.
  intros name _. by apply extract_amount_same_fields.
Qed.

Lemma filter_Permutation_bool {A} (f : A → bool) (l l' : list A) :
  l ≡ₚ l' → List.filter f l ≡ₚ List.filter f l'.
Proof.
  induction 1 as [|x l l' _ IH|x y l|l1 l2 l3 _ IH1 _ IH2]; simpl.
  - done.
  - destruct (f x); [by constructor|done].
  - destruct (f x), (f y); try done. apply perm_swap.
  - by etrans.
Qed.

Lemma short_Permutation_eq {A} (l l' : list A) :
  l ≡ₚ l' → (length l ≤ 1)%nat → l = l'.
Proof.
  intros Hp Hlen. destruct l as [|a [|b l]]; simpl in Hlen; [| |lia].
  - by apply Permutation_nil_l in Hp.
  - by apply Permutation_singleton_l in Hp.
Qed.

(** X5: the order of the line items matters among items of one label only.
    When each of the ten account names labels at most one item, every
    reordering of the snapshot gives the same ratios. *)
Theorem order_irrelevant_without_duplicates items items' :
  items ≡ₚ items' →
  Forall (λ name, (length (List.filter (label_is name) items) ≤ 1)%nat)
         account_names →
  compute_ratios_from_items items = compute_ratios_from_items items'.
Proof.
  intros Hp Huniq. apply compute_ratios_ext.
  eapply Forall_impl; [exact Huniq|]. intros name Hname. simpl in Hname.
  rewrite (extract_amount_filter items), (extract_amount_filter items').
  f_equal. apply short_Permutation_eq; [|done].
  by apply filter_Permutation_bool.
Qed.

(** X6: a snapshot in which no item carries any of the ten account names,
    the empty snapshot included, gives the ratio set that binds all nine
    names to absent. *)
Theorem no_known_label_all_absent items :
  Forall (λ it, Forall (λ name, label_is name it = false) account_names)
         items →
  ∃ rs, compute_ratios_from_items items = Ok rs ∧
        ∀ k, k ∈ ratio_names → rs !! k = Some None.
Proof.
  intros Hall.
  assert (compute_ratios_from_items items = compute_ratios_from_items [])
    as E.
  { apply compute_ratios_ext, Forall_forall. intros name Hname.
    rewrite extract_amount_filter.
    replace (List.filter (label_is name) items) with
      (@nil (gmap string pyval)); [done|].
    induction Hall as [|it items Hit _ IH]; [done|].
    simpl. rewrite Forall_forall in Hit. by rewrite (Hit name Hname). }
  eexists. split; [rewrite E; apply compute_ratios_nil|].
  intros k Hk. unfold ratio_names in Hk.
  rewrite !elem_of_union, !elem_of_singleton in Hk.
  repeat (destruct Hk as [Hk|Hk]); subst; reflexivity.
Qed.

End RatiosMore.

Lemma unrelated_item_ignored_witness :
  @compute_ratios_from_items sample_env
    [line_item "유동자산" "200"; line_item "기타유동자산" "7";
     line_item "유동부채" "100"]
  = @compute_ratios_from_items sample_env snapshot_two.
Proof.
  apply (@unrelated_item_ignored sample_env [line_item "유동자산" "200"]
           (line_item "기타유동자산" "7") [line_item "유동부채" "100"]).
  unfold account_names.
  repeat (apply Forall_cons; split; [vm_compute; reflexivity|]).
  apply Forall_nil_2.
Defined.

Lemma other_fields_ignored_witness :
  @compute_ratios_from_items sample_env
    [long_item "유동자산" "200" "150"; long_item "유동부채" "100" "90"]
  = @compute_ratios_from_items sample_env snapshot_two.
Proof.
  apply (@other_fields_ignored sample_env).
  repeat (apply Forall2_cons; split;
          [split; vm_compute; reflexivity|]).
  apply Forall2_nil_2.
Defined.

Lemma order_irrelevant_without_duplicates_witness :
  @compute_ratios_from_items sample_env snapshot_two
  = @compute_ratios_from_items sample_env
      [line_item "유동부채" "100"; line_item "유동자산" "200"].
Proof.
  apply (@order_irrelevant_without_duplicates sample_env).
  - apply perm_swap.
  - unfold account_names.
    repeat (apply Forall_cons; split; [vm_compute; lia|]).
    apply Forall_nil_2.
Defined.

Lemma no_known_label_all_absent_witness :
  ∃ rs, @compute_ratios_from_items sample_env
          [line_item "Current assets" "300";
           <["thstrm_amount" := PStr "5"]> ∅] = Ok rs ∧
        rs !! "roe" = Some None.
Proof.
  destruct (@no_known_label_all_absent sample_env
              [line_item "Current assets" "300";
               <["thstrm_amount" := PStr "5"]> ∅]) as (rs & Hrs & Hall).
  - repeat (apply Forall_cons; split;
            [unfold account_names;
             repeat (apply Forall_cons; split; [vm_compute; reflexivity|]);
             apply Forall_nil_2|]).
    apply Forall_nil_2.
  - exists rs. split; [exact Hrs|]. apply Hall.
    apply (bool_decide_unpack _). vm_compute. exact I.
Defined.

(** * Further properties of the aggregation *)

Section AggregationMore.
Implicit Types (rows : list (gmap string (option float))) (k : string).

Lemma forallb_false_witness {A} (f : A → bool) (l : list A) :
  forallb f l = false → ∃ x, x ∈ l ∧ f x = false.
Proof.
  induction l as [|x l IH]; simpl; [done|].
  destruct (f x) eqn:E; simpl.
  - intros Hl. destruct (IH Hl) as (y & Hy & Hf). exists y. split; [by right|done].
  - intros _. exists x. split; [left|done].
Qed.

Lemma cell_not_None rows k :
  forallb is_None (map (cell_of k) rows) = false ↔
  ∃ row, row ∈ rows ∧ row !! k ≠ Some None.
Proof.
  split.
  - intros Hf. destruct (forallb_false_witness _ _ Hf) as (c & Hc & Hn).
    apply list_elem_of_fmap in Hc as (row & -> & Hrow).
    exists row. split; [done|]. intros E. unfold cell_of in Hn.
    by rewrite E in Hn.
  - intros (row & Hrow & Hne).
    destruct (forallb _ _) eqn:E; [|done].
    by pose proof (proj1 (forallb_is_None_cells _ _) E row Hrow).
Qed.

Lemma benchmark_key_returned_aux rows k :
  is_Some (mean_benchmarks rows !! k) →
  k ∈ ⋃ (dom <$> rows) ∧ ∃ row, row ∈ rows ∧ row !! k ≠ Some None.
Proof.
  rewrite mean_benchmarks_lookup, <- cell_not_None.
  case_decide as Hk; [|by intros [? ?]].
  destruct (forallb _ _); [by intros [? ?]|done].
Qed.

(** X7: which names are keys of the benchmarks.  A name is returned exactly
    when it is a key of some collected ratio set and some collected set does
    not bind it to [None]; a name that every set binds to [None] is not a
    key of the result. *)
Theorem benchmark_key_returned rows k :
  is_Some (mean_benchmarks rows !! k) ↔
  k ∈ ⋃ (dom <$> rows) ∧ ∃ row, row ∈ rows ∧ row !! k ≠ Some None.
Proof.
  rewrite mean_benchmarks_lookup, <- cell_not_None.
  case_decide as Hk; [|split; [by intros [? ?]|by intros [? _]]].
  destruct (forallb _ _); split.
  - by intros [? ?].
  - by intros [_ ?].
  - done.
  - by eexists.
Qed.

(** X8: a returned name that no collected set has a number for, its values
    being absent or not-a-number throughout, is bound to [None]. *)
Theorem no_number_bound_to_none rows k :
  number_values k rows = [] →
  is_Some (mean_benchmarks rows !! k) →
  mean_benchmarks rows !! k = Some None.
Proof.
  rewrite mean_benchmarks_lookup. intros Hnone.
  case_decide; [|by intros [? ?]].
  destruct (forallb _ _); [by intros [? ?]|]. intros _.
  unfold nanmean. rewrite filter_notnan_cells, Hnone. reflexivity.
Qed.

(** X9: when every collected ratio set has the nine names as keys and binds
    them all to [None], the benchmarks are the empty dict. *)
Theorem all_absent_gives_empty_benchmarks rows :
  Forall (λ row : gmap string (option float),
            dom row = ratio_names ∧
            ∀ k, k ∈ ratio_names → row !! k = Some None) rows →
  mean_benchmarks rows = ∅.
Proof.
  intros Hrows. apply map_eq. intros k. rewrite lookup_empty.
  destruct (mean_benchmarks rows !! k) as [v|] eqn:E; [exfalso|done].
  assert (is_Some (mean_benchmarks rows !! k)) as Hsome by (by eexists).
  apply benchmark_key_returned_aux in Hsome as (Hk & row & Hrow & Hne).
  rewrite Forall_forall in Hrows.
  apply elem_of_union_list in Hk as (X & HX & HkX).
  apply list_elem_of_fmap in HX as (row' & -> & Hrow').
  destruct (Hrows row' Hrow') as [Hdom _]. rewrite Hdom in HkX.
  destruct (Hrows row Hrow) as [_ Hnone]. by apply Hne, Hnone.
Qed.

(** X10: the clean-up loop neither adds nor removes a key, and acts on each
    value alone: a non-finite number becomes [None], every other value is
    kept. *)
Theorem cleanup_is_pointwise (m : gmap string (option float)) :
  dom (nan_to_none m) = dom m ∧
  ∀ k, nan_to_none m !! k = (λ v, if non_finite v then None else v) <$> m !! k.
Proof.
  split; [|apply nan_to_none_lookup].
  apply set_eq. intros k. rewrite !elem_of_dom, nan_to_none_lookup.
  by rewrite fmap_is_Some.
Qed.

End AggregationMore.

Lemma no_number_bound_to_none_witness :
  mean_benchmarks [ratios_of snapshot_inf; ratios_of snapshot_duplicates]
    !! "current_ratio" = Some None.
Proof.
  apply (no_number_bound_to_none
           [ratios_of snapshot_inf; ratios_of snapshot_duplicates]
           "current_ratio").
  - vm_compute. reflexivity.
  - vm_compute. by eexists.
Defined.

Lemma all_absent_gives_empty_benchmarks_witness :
  mean_benchmarks [ratios_of []; ratios_of [line_item "Current assets" "300"]]
  = ∅.
Proof.
  apply (all_absent_gives_empty_benchmarks
           [ratios_of []; ratios_of [line_item "Current assets" "300"]]).
  repeat (apply Forall_cons; split;
    [split;
     [apply (bool_decide_unpack _); vm_compute; exact I
     |intros k Hk; unfold ratio_names in Hk;
      rewrite !elem_of_union, !elem_of_singleton in Hk;
      repeat (destruct Hk as [Hk|Hk]); subst; vm_compute; reflexivity]|]).
  apply Forall_nil_2.
Defined.

(** * Further properties of the handler *)

Section HandlerMore.
Context `{Env}.



Lemma peers_loop_length year rc ps acc tr tr' out :
  peers_loop year rc ps acc tr = (tr', Ok out) →
  (length out ≤ length acc + length ps)%nat.
Proof.
  revert acc tr. induction ps as [|corp ps IH]; intros acc tr.
  - intros [= <- <-]. lia.
  - rewrite peers_loop_cons. cbv zeta.
    destruct (upstream tr _) as [data|msg]; [|done].
    destruct (negb _).
    + intros Hloop. apply IH in Hloop. simpl. lia.
    + destruct (compute_ratios_from_items _) as [rs|e]; [|done].
      intros Hloop. apply IH in Hloop. rewrite length_app in Hloop.
      simpl in *. lia.
Qed.

Lemma peers_loop_dom year rc ps acc tr tr' out :
  Forall (λ row : gmap string (option float), dom row = ratio_names) acc →
  peers_loop year rc ps acc tr = (tr', Ok out) →
  Forall (λ row : gmap string (option float), dom row = ratio_names) out.
Proof.
  revert acc tr. induction ps as [|corp ps IH]; intros acc tr Hacc.
  - by intros [= <- <-].
  - rewrite peers_loop_cons. cbv zeta.
    destruct (upstream tr _) as [data|msg]; [|done].
    destruct (negb _); [by apply IH|].
    destruct (compute_ratios_from_items _) as [rs|e] eqn:E; [|done].
    apply IH. apply Forall_app. split; [done|].
    apply Forall_singleton. by apply (compute_ratios_names _ _ E).
Qed.

Lemma benchmark_industry_ok req tr tr' resp :
  benchmark_industry req tr = (tr', Ok resp) →
  ∃ ps all_ratios,
    peers req = Some ps ∧ ps ≠ [] ∧ all_ratios ≠ [] ∧
    peers_loop (year req) (report_code req) ps [] tr = (tr', Ok all_ratios) ∧
    resp = {| source := "dart";
              year_echo := year req;
              count_peers := length all_ratios;
              benchmarks := mean_benchmarks all_ratios;
              notes := Some "DART fnlttSinglAcntAll 기반 동종사 평균" |}.
Proof.
  rewrite benchmark_industry_eq.
  destruct (peers req) as [[|p ps]|]; try discriminate.
  destruct (peers_loop _ _ _ _ _) as [tr1 [[|rs all_ratios]|e]] eqn:Hloop;
    try discriminate.
  intros [= <- <-]. by exists (p :: ps), (rs :: all_ratios).
Qed.


(** X12: a fault of one lookup aborts the request with that fault.  The
    ratio sets collected before it are dropped and the peers after it are
    not looked up. *)
Theorem fault_aborts_request req ps pre corp post tr tr1 acc msg :
  peers req = Some ps →
  ps = pre ++ corp :: post →
  peers_loop (year req) (report_code req) pre [] tr = (tr1, Ok acc) →
  upstream tr1 (mk_call corp (year req) (report_code req)) = Fault msg →
  benchmark_industry req tr
  = (tr1 ++ [mk_call corp (year req) (report_code req)],
     Raise (RequestError msg)).
Proof.
  intros Hp -> Hpre Hup. rewrite benchmark_industry_eq, Hp.
  destruct (pre ++ corp :: post) as [|p0 ps0] eqn:Eps.
  { by destruct pre. }
  rewrite <- Eps, peers_loop_app, Hpre, peers_loop_cons. cbv zeta.
  by rewrite Hup.
Qed.


(** X14: a successful response carries the source tag, the year of the
    request and the fixed note, and counts at least one peer and at most as
    many peers as the request lists. *)
Theorem shape_of_a_success req tr tr' resp :
  benchmark_industry req tr = (tr', Ok resp) →
  source resp = "dart" ∧
  year_echo resp = year req ∧
  notes resp = Some "DART fnlttSinglAcntAll 기반 동종사 평균" ∧
  ∃ ps, peers req = Some ps ∧
        (1 ≤ count_peers resp ≤ length ps)%nat.
Proof.
  intros Hok.
  destruct (benchmark_industry_ok _ _ _ _ Hok)
    as (ps & all_ratios & Hp & _ & Hne & Hloop & ->).
  simpl. repeat (split; [reflexivity|]).
  exists ps. split; [done|]. apply peers_loop_length in Hloop. simpl in Hloop.
  destruct all_ratios; [done|]. simpl in *. split; lia.
Qed.

(** X15: in a successful response every key of the benchmarks is one of the
    nine ratio names, and no value is not-a-number or infinite: a value is
    [None] or a finite number. *)
Theorem benchmarks_of_a_success req tr tr' resp :
  benchmark_industry req tr = (tr', Ok resp) →
  dom (benchmarks resp) ⊆ ratio_names ∧
  ∀ k x, benchmarks resp !! k = Some (Some x) →
         PrimFloat.is_nan x = false ∧ PrimFloat.is_infinity x = false.
Proof.
  intros Hok.
  destruct (benchmark_industry_ok _ _ _ _ Hok)
    as (ps & all_ratios & Hp & _ & Hne & Hloop & ->).
  simpl. split; [|intros k x; apply mean_benchmarks_finite].
  apply peers_loop_dom in Hloop; [|by apply Forall_nil_2].
  intros k Hk. apply elem_of_dom in Hk.
  apply benchmark_key_returned_aux in Hk as (Hk & _).
  apply elem_of_union_list in Hk as (X & HX & HkX).
  apply list_elem_of_fmap in HX as (row & -> & Hrow).
  rewrite Forall_forall in Hloop. by rewrite <- (Hloop row Hrow).
Qed.

End HandlerMore.

Section CountingMore.
Context `{Env}.



(** X17: the two optional fields of a request are never read: replacing
    [industry_code] and [metrics] by anything leaves the outcome and the
    lookups made unchanged. *)
Theorem optional_fields_never_read req ic ms tr :
  benchmark_industry
    {| year := year req; report_code := report_code req; peers := peers req;
       industry_code := ic; metrics := ms |} tr
  = benchmark_industry req tr.
Proof. by apply unused_fields_have_no_effect. Qed.

End CountingMore.


Lemma fault_aborts_request_witness :
  @benchmark_industry sample_env
    (request_for (Some ["00100001"; "00999999"; "00126380"])) []
  = ([@mk_call sample_env "00100001" "2023" "11011"]
     ++ [@mk_call sample_env "00999999" "2023" "11011"],
     Raise (RequestError "read timed out")).
Proof.
  apply (@fault_aborts_request sample_env
           (request_for (Some ["00100001"; "00999999"; "00126380"]))
           ["00100001"; "00999999"; "00126380"]
           ["00100001"] "00999999" ["00126380"] []
           [@mk_call sample_env "00100001" "2023" "11011"] []
           "read timed out"); reflexivity.
Defined.


Lemma shape_of_a_success_witness :
  ∃ tr' resp,
    @benchmark_industry sample_env
      (request_for (Some ["00126380"; "00100001"])) [] = (tr', Ok resp) ∧
    year_echo resp = "2023" ∧ (1 ≤ count_peers resp ≤ 2)%nat.
Proof.
  destruct (@benchmark_industry sample_env
              (request_for (Some ["00126380"; "00100001"])) [])
    as [tr' [resp|e]] eqn:E.
  - exists tr', resp. split; [reflexivity|].
    destruct (@shape_of_a_success sample_env _ _ _ _ E)
      as (_ & Hyear & _ & ps & Hps & Hcount).
    split; [exact Hyear|]. injection Hps as <-. exact Hcount.
  - vm_compute in E. discriminate.
Defined.

Lemma benchmarks_of_a_success_witness :
  ∃ tr' resp,
    @benchmark_industry sample_env
      (request_for (Some ["00126380"; "00155319"])) [] = (tr', Ok resp) ∧
    dom (benchmarks resp) ⊆ ratio_names.
Proof.
  destruct (@benchmark_industry sample_env
              (request_for (Some ["00126380"; "00155319"])) [])
    as [tr' [resp|e]] eqn:E.
  - exists tr', resp. split; [reflexivity|].
    exact (proj1 (@benchmarks_of_a_success sample_env _ _ _ _ E)).
  - vm_compute in E. discriminate.
Defined.


Section AbsentPeer.
Implicit Types (rows : list (gmap string (option float))) (k : string).





End AbsentPeer.

